(** * FerretDB loader shim: [ferretdb_loader.c]

    A verification development for the two builds of the PostgreSQL
    background-worker trampoline of FerretDB:

      - build/ferretdb-bw/ferretdb_loader/ferretdb_loader.c
      - build/ferretdb-extension/ferretdb_loader/ferretdb_loader.c

    Each file has two functions.  [_PG_init] fills a [BackgroundWorker]
    descriptor and registers it; [background_main] is the body of the
    worker process: it unblocks signals, builds the path of [ferretdb.so],
    logs it, opens the library, looks [BackgroundWorkerMain] up, calls it,
    closes the library and leaves through [proc_exit].

    The C code is a straight line of calls into the host (PostgreSQL) and
    into the dynamic loader.  It is embedded as a computation in a small
    monad over the state of the worker process: the heap of [palloc]ed
    chunks and the trace of calls made so far.  A computation either
    returns to its caller or halts the process (exit, undefined
    behaviour, or a callee that never comes back).  Signals are not
    delivered in this model, and the allocator does not fail. *)

From Stdlib Require Import ZArith Ascii String List Lia.
From stdpp Require Import gmap strings.

Local Open Scope Z_scope.

(** ** Machine data *)

(** Pointers are addresses; [NULL] is address zero. *)
Definition ptr : Type := Z.
Definition NULL : ptr := 0.

(** [Datum] is a word-sized opaque value. *)
Definition Datum : Type := Z.

(** [size_t] on an LP64 platform: unsigned 64-bit, arithmetic wraps. *)
Definition SIZE_MAX : Z := 2 ^ 64 - 1.
Definition size_add (a b : Z) : Z := (a + b) mod (SIZE_MAX + 1).

(** [strlen] of a C string. *)
Definition strlen (s : string) : Z := Z.of_nat (String.length s).

(** The double quote character, and the one-character string of it. *)
Definition dquote_char : ascii := ascii_of_nat 34.
Definition dquote : string := String dquote_char EmptyString.

(** ** Declarations taken from the host's and the platform's headers

    The numeric values of these macros and enumerators live in
    PostgreSQL's and the C library's headers, outside this repository;
    the development is parametric in them. *)
Record Headers : Type := {
  LOG : Z;                               (* utils/elog.h *)
  DEBUG1 : Z;                            (* utils/elog.h *)
  RTLD_NOW : Z;                          (* dlfcn.h *)
  RTLD_GLOBAL : Z;                       (* dlfcn.h *)
  BGW_MAXLEN : nat;                      (* postmaster/bgworker.h *)
  BGWORKER_SHMEM_ACCESS : Z;             (* postmaster/bgworker.h *)
  BGW_NEVER_RESTART : Z;                 (* postmaster/bgworker.h *)
  BgWorkerStart_RecoveryFinished : Z     (* postmaster/bgworker.h *)
}.

(** The values of PostgreSQL 17 on Linux with glibc. *)
Definition pg_linux : Headers := {|
  LOG := 15;
  DEBUG1 := 14;
  RTLD_NOW := 2;
  RTLD_GLOBAL := 256;
  BGW_MAXLEN := 96;
  BGWORKER_SHMEM_ACCESS := 1;
  BGW_NEVER_RESTART := -1;
  BgWorkerStart_RecoveryFinished := 2
|}.

(** ** The world around one worker process

    What the shim cannot decide itself: the host's library directory,
    the address the allocator hands out, what the dynamic loader answers,
    and whether the function at a given address returns to its caller. *)
Record World : Type := {
  pkglib_path : string;
  palloc_chunk : Z -> ptr;
  dlopen_answer : string -> Z -> ptr;      (* NULL when the load fails *)
  dlsym_answer : ptr -> string -> ptr;     (* NULL when the symbol is absent *)
  entry_returns : ptr -> Datum -> bool
}.

(** ** Process state, events and outcomes *)

(** The fields of the host's [BackgroundWorker] descriptor that the shim
    fills in.  The character arrays are held as the C strings in them. *)
Record BackgroundWorker : Type := {
  bgw_name : string;
  bgw_flags : Z;
  bgw_start_time : Z;
  bgw_restart_time : Z;
  bgw_library_name : string;
  bgw_function_name : string
}.

(** One [palloc]ed chunk: its size in bytes and, once written, the C
    string it holds. *)
Record chunk : Type := { capacity : Z; contents : option string }.

Inductive event : Type :=
| EvUnblockSignals
| EvPalloc (size : Z) (p : ptr)
| EvJoinPath (dst : ptr) (head tail : string)
| EvElog (elevel : Z) (line : string)
| EvDlopen (file : string) (flags : Z)
| EvPfree (p : ptr)
| EvDlsym (handle : ptr) (symbol : string)
| EvCall (f : ptr) (arg : Datum)
| EvDlclose (handle : ptr)
| EvProcExit (code : Z)
| EvRegisterBackgroundWorker (worker : BackgroundWorker).

Inductive fault : Type :=
| NullCall          (* a call through a null function pointer *)
| BadPointer        (* access to memory that is not an allocated, written chunk *)
| Overflow          (* a write past the end of a chunk *)
| NullHandle.       (* [dlclose] of a null handle *)

Inductive outcome : Type :=
| Exited (code : Z)
| Undefined (why : fault)
| NoReturn.         (* the callee keeps the process for itself *)

Record Proc : Type := { heap : gmap Z chunk; trace : list event }.

Definition fresh_proc : Proc := {| heap := ∅; trace := [] |}.

Inductive result (A : Type) : Type :=
| Ret (a : A) (s : Proc)
| Halt (o : outcome) (s : Proc).
Arguments Ret {A} a s.
Arguments Halt {A} o s.

Definition M (A : Type) : Type := Proc -> result A.

Definition ret {A} (a : A) : M A := fun s => Ret a s.

Definition bind {A B} (m : M A) (k : A -> M B) : M B :=
  fun s => match m s with
           | Ret a s' => k a s'
           | Halt o s' => Halt o s'
           end.

#[global] Instance M_ret : MRet M := @ret.
#[global] Instance M_bind : MBind M := fun A B k m => bind m k.

Definition emit (e : event) : M unit :=
  fun s => Ret tt {| heap := heap s; trace := trace s ++ [e] |}.

Definition halt {A} (o : outcome) : M A := fun s => Halt o s.

(** Read the C string stored at [p]. *)
Definition read_cstring (p : ptr) : M string :=
  fun s => match heap s !! p with
           | Some {| contents := Some str |} => Ret str s
           | _ => Halt (Undefined BadPointer) s
           end.

(** Store the C string [str] and its terminator at [p]. *)
Definition write_cstring (p : ptr) (str : string) : M unit :=
  fun s => match heap s !! p with
           | Some c =>
               if strlen str + 1 <=? capacity c
               then Ret tt {| heap := <[p := {| capacity := capacity c;
                                               contents := Some str |}]> (heap s);
                              trace := trace s |}
               else Halt (Undefined Overflow) s
           | None => Halt (Undefined BadPointer) s
           end.

Definition trace_of {A} (r : result A) : list event :=
  match r with Ret _ s => trace s | Halt _ s => trace s end.

Definition heap_of {A} (r : result A) : gmap Z chunk :=
  match r with Ret _ s => heap s | Halt _ s => heap s end.

Definition outcome_of {A} (r : result A) : option outcome :=
  match r with Ret _ _ => None | Halt o _ => Some o end.

Definition run {A} (m : M A) : result A := m fresh_proc.

(** ** String helpers of the C library and of the host *)

(** [snprintf(buf, n, lit)] for a literal without conversions: at most
    [n - 1] characters of [lit] are stored, then the terminator; nothing
    is stored when [n] is zero. *)
Definition snprintf (n : nat) (lit : string) : string :=
  substring 0 (n - 1) lit.

(** The [%s] conversion of the host's message formatting: the first
    [%s] of [fmt] is replaced by [arg]. *)
Fixpoint format_s (fmt arg : string) : string :=
  match fmt with
  | EmptyString => EmptyString
  | String c rest =>
      if Ascii.eqb c "%"
      then match rest with
           | String c' rest' =>
               if Ascii.eqb c' "s" then arg +:+ rest'
               else String c (format_s rest arg)
           | EmptyString => String c EmptyString
           end
      else String c (format_s rest arg)
  end.

Definition is_dir_sep (c : ascii) : bool := Ascii.eqb c "/".

(** [s] without the directory separators at its end. *)
Fixpoint trim_trailing_sep (s : string) : string :=
  match s with
  | EmptyString => EmptyString
  | String c r =>
      match trim_trailing_sep r with
      | EmptyString => if is_dir_sep c then EmptyString else String c EmptyString
      | r' => String c r'
      end
  end.

(** Modelled from the spec: the path-joining routine of the host,
    [join_path_components], belongs to PostgreSQL's port library and is
    not among the sources of this repository.  The specification describes
    its result as the canonical join of the directory and the file name:
    one separator between the two, no double separator, a trailing
    separator of the directory absorbed; the directory "/opt/pg/lib" and
    the name "ferretdb.so" give "/opt/pg/lib/ferretdb.so".  An empty
    directory leaves the file name alone. *)
Definition canonical_join (head tail : string) : string :=
  match head with
  | EmptyString => tail
  | _ => trim_trailing_sep head +:+ "/" +:+ tail
  end.

(** ** The calls the shim makes *)

Section Host.
Context (w : World).

Definition BackgroundWorkerUnblockSignals : M unit := emit EvUnblockSignals.

(** A fresh chunk of [size] bytes with indeterminate contents.  The
    host's allocator never returns [NULL]. *)
Definition palloc (size : Z) : M ptr :=
  fun s =>
    let p := palloc_chunk w size in
    Ret p {| heap := <[p := {| capacity := size; contents := None |}]> (heap s);
             trace := trace s ++ [EvPalloc size p] |}.

Definition pfree (p : ptr) : M unit :=
  fun s => match heap s !! p with
           | Some _ => Ret tt {| heap := delete p (heap s);
                                 trace := trace s ++ [EvPfree p] |}
           | None => Halt (Undefined BadPointer) s
           end.

(** Modelled from the spec: [join_path_components] is the host's
    routine and is not among the sources of this repository; it stores
    the canonical join of [head] and [tail], as the specification
    describes it, at [ret_path]. *)
Definition join_path_components (ret_path : ptr) (head tail : string) : M unit :=
  emit (EvJoinPath ret_path head tail);;
  write_cstring ret_path (canonical_join head tail).

(** [elog] below [ERROR] severity returns to its caller. *)
Definition elog (elevel : Z) (fmt : string) (arg : ptr) : M unit :=
  str ← read_cstring arg;
  emit (EvElog elevel (format_s fmt str)).

Definition dlopen (file : ptr) (flags : Z) : M ptr :=
  name ← read_cstring file;
  emit (EvDlopen name flags);;
  mret (dlopen_answer w name flags).

Definition dlsym (handle : ptr) (symbol : string) : M ptr :=
  emit (EvDlsym handle symbol);;
  mret (dlsym_answer w handle symbol).

(** A call through the function pointer [f]. *)
Definition call (f : ptr) (arg : Datum) : M unit :=
  emit (EvCall f arg);;
  if f =? NULL then halt (Undefined NullCall)
  else if entry_returns w f arg then mret tt
  else halt NoReturn.

(** [dlclose] of a null handle does not come back: the C library of the
    platform of [pg_linux] reads through the handle and faults. *)
Definition dlclose (handle : ptr) : M unit :=
  emit (EvDlclose handle);;
  if handle =? NULL then halt (Undefined NullHandle) else mret tt.

Definition proc_exit {A} (code : Z) : M A :=
  emit (EvProcExit code);; halt (Exited code).

Definition RegisterBackgroundWorker (worker : BackgroundWorker) : M unit :=
  emit (EvRegisterBackgroundWorker worker).
End Host.

(** Assignments to the fields of a descriptor. *)
Definition set_bgw_name (v : string) (b : BackgroundWorker) : BackgroundWorker :=
  {| bgw_name := v; bgw_flags := bgw_flags b;
     bgw_start_time := bgw_start_time b; bgw_restart_time := bgw_restart_time b;
     bgw_library_name := bgw_library_name b;
     bgw_function_name := bgw_function_name b |}.

Definition set_bgw_flags (v : Z) (b : BackgroundWorker) : BackgroundWorker :=
  {| bgw_name := bgw_name b; bgw_flags := v;
     bgw_start_time := bgw_start_time b; bgw_restart_time := bgw_restart_time b;
     bgw_library_name := bgw_library_name b;
     bgw_function_name := bgw_function_name b |}.

Definition set_bgw_start_time (v : Z) (b : BackgroundWorker) : BackgroundWorker :=
  {| bgw_name := bgw_name b; bgw_flags := bgw_flags b;
     bgw_start_time := v; bgw_restart_time := bgw_restart_time b;
     bgw_library_name := bgw_library_name b;
     bgw_function_name := bgw_function_name b |}.

Definition set_bgw_restart_time (v : Z) (b : BackgroundWorker) : BackgroundWorker :=
  {| bgw_name := bgw_name b; bgw_flags := bgw_flags b;
     bgw_start_time := bgw_start_time b; bgw_restart_time := v;
     bgw_library_name := bgw_library_name b;
     bgw_function_name := bgw_function_name b |}.

Definition set_bgw_library_name (v : string) (b : BackgroundWorker) : BackgroundWorker :=
  {| bgw_name := bgw_name b; bgw_flags := bgw_flags b;
     bgw_start_time := bgw_start_time b; bgw_restart_time := bgw_restart_time b;
     bgw_library_name := v;
     bgw_function_name := bgw_function_name b |}.

Definition set_bgw_function_name (v : string) (b : BackgroundWorker) : BackgroundWorker :=
  {| bgw_name := bgw_name b; bgw_flags := bgw_flags b;
     bgw_start_time := bgw_start_time b; bgw_restart_time := bgw_restart_time b;
     bgw_library_name := bgw_library_name b;
     bgw_function_name := v |}.

(** [MemSet(&worker, 0, sizeof(BackgroundWorker))]. *)
Definition zeroed_worker : BackgroundWorker := {|
  bgw_name := EmptyString;
  bgw_flags := 0;
  bgw_start_time := 0;
  bgw_restart_time := 0;
  bgw_library_name := EmptyString;
  bgw_function_name := EmptyString
|}.

(** ** build/ferretdb-bw/ferretdb_loader/ferretdb_loader.c *)
Module Bw.
Section Code.
Context (hd : Headers) (w : World).

Definition ferretdb_so : string := "ferretdb.so".

Definition background_main (main_arg : Datum) : M unit :=
  BackgroundWorkerUnblockSignals;;
  path ← palloc w (size_add (size_add (size_add (strlen (pkglib_path w)) 1)
                                      (strlen ferretdb_so)) 1);
  join_path_components path (pkglib_path w) ferretdb_so;;
  elog (LOG hd) "ferretdb_loader: loading '%s'" path;;
  h ← dlopen w path (Z.lor (RTLD_NOW hd) (RTLD_GLOBAL hd));
  pfree path;;
  f ← dlsym w h "BackgroundWorkerMain";
  call w f main_arg;;
  dlclose h;;
  proc_exit 0.

Definition _PG_init : M unit :=
  let worker := zeroed_worker in
  let worker := set_bgw_name (snprintf (BGW_MAXLEN hd) "FerretDBLoader") worker in
  let worker := set_bgw_flags (BGWORKER_SHMEM_ACCESS hd) worker in
  let worker := set_bgw_start_time (BgWorkerStart_RecoveryFinished hd) worker in
  let worker := set_bgw_restart_time (BGW_NEVER_RESTART hd) worker in
  let worker := set_bgw_library_name (snprintf (BGW_MAXLEN hd) "ferretdb_loader") worker in
  let worker := set_bgw_function_name (snprintf (BGW_MAXLEN hd) "background_main") worker in
  RegisterBackgroundWorker worker.
End Code.
End Bw.

(** ** build/ferretdb-extension/ferretdb_loader/ferretdb_loader.c *)
Module Extension.
Section Code.
Context (hd : Headers) (w : World).

Definition ferretdb_lib : string := "ferretdb.so".

Definition background_main (main_arg : Datum) : M unit :=
  BackgroundWorkerUnblockSignals;;
  golib_path ← palloc w (size_add (size_add (size_add (strlen (pkglib_path w)) 1)
                                            (strlen ferretdb_lib)) 1);
  join_path_components golib_path (pkglib_path w) ferretdb_lib;;
  elog (DEBUG1 hd)
       ("ferretdb_loader: loading go shared lib " +:+ dquote +:+ "%s" +:+ dquote)
       golib_path;;
  handle ← dlopen w golib_path (Z.lor (RTLD_NOW hd) (RTLD_GLOBAL hd));
  pfree golib_path;;
  entrypt ← dlsym w handle "BackgroundWorkerMain";
  call w entrypt main_arg;;
  dlclose handle;;
  proc_exit 2.

Definition _PG_init : M unit :=
  let worker := zeroed_worker in
  let worker := set_bgw_name (snprintf (BGW_MAXLEN hd) "FerretDBLoader") worker in
  let worker := set_bgw_flags (BGWORKER_SHMEM_ACCESS hd) worker in
  let worker := set_bgw_start_time (BgWorkerStart_RecoveryFinished hd) worker in
  let worker := set_bgw_restart_time (BGW_NEVER_RESTART hd) worker in
  let worker := set_bgw_library_name (snprintf (BGW_MAXLEN hd) "ferretdb_loader") worker in
  let worker := set_bgw_function_name (snprintf (BGW_MAXLEN hd) "background_main") worker in
  RegisterBackgroundWorker worker.
End Code.
End Extension.

(** ** Sample worlds *)

(** The library loads at handle 7 and exports the entry point at
    address 9, which returns when called. *)
Definition world_ok : World := {|
  pkglib_path := "/opt/pg/lib";
  palloc_chunk := fun _ => 4096;
  dlopen_answer := fun file _ => if String.eqb file "/opt/pg/lib/ferretdb.so" then 7 else NULL;
  dlsym_answer := fun h sym =>
    if (h =? 7) && String.eqb sym "BackgroundWorkerMain" then 9 else NULL;
  entry_returns := fun _ _ => true
|}.

(** The library loads but does not export [BackgroundWorkerMain]. *)
Definition world_no_symbol : World := {|
  pkglib_path := "/opt/pg/lib";
  palloc_chunk := fun _ => 4096;
  dlopen_answer := fun file _ => if String.eqb file "/opt/pg/lib/ferretdb.so" then 7 else NULL;
  dlsym_answer := fun _ _ => NULL;
  entry_returns := fun _ _ => true
|}.

(** The library file is missing: [dlopen] answers [NULL], and so does
    every lookup. *)
Definition world_no_library : World := {|
  pkglib_path := "/opt/pg/lib";
  palloc_chunk := fun _ => 4096;
  dlopen_answer := fun _ _ => NULL;
  dlsym_answer := fun _ _ => NULL;
  entry_returns := fun _ _ => true
|}.

(** The library file is missing, and a lookup on the null handle
    searches the symbols of the process itself, where a function named
    [BackgroundWorkerMain] is found at address 11. *)
Definition world_no_library_global : World := {|
  pkglib_path := "/opt/pg/lib";
  palloc_chunk := fun _ => 4096;
  dlopen_answer := fun _ _ => NULL;
  dlsym_answer := fun h sym =>
    if (h =? NULL) && String.eqb sym "BackgroundWorkerMain" then 11 else NULL;
  entry_returns := fun _ _ => true
|}.

(** The library loads and exports the entry point at address 9, which
    keeps the process and never returns. *)
Definition world_blocking : World := {|
  pkglib_path := "/opt/pg/lib";
  palloc_chunk := fun _ => 4096;
  dlopen_answer := fun file _ => if String.eqb file "/opt/pg/lib/ferretdb.so" then 7 else NULL;
  dlsym_answer := fun h sym =>
    if (h =? 7) && String.eqb sym "BackgroundWorkerMain" then 9 else NULL;
  entry_returns := fun _ _ => false
|}.

(** ** One loader, two variants

    The two builds differ in the severity and the wording of the log
    line and in the exit status.  [loader] is the common shape; each
    build's [background_main] is an instance of it. *)
Record Variant : Type := {
  log_level : Z;
  log_format : string;
  exit_status : Z
}.

Definition bw_variant (hd : Headers) : Variant := {|
  log_level := LOG hd;
  log_format := "ferretdb_loader: loading '%s'";
  exit_status := 0
|}.

Definition extension_variant (hd : Headers) : Variant := {|
  log_level := DEBUG1 hd;
  log_format := "ferretdb_loader: loading go shared lib " +:+ dquote +:+ "%s" +:+ dquote;
  exit_status := 2
|}.

Definition library_file : string := "ferretdb.so".
Definition entry_symbol : string := "BackgroundWorkerMain".

Definition load_flags (hd : Headers) : Z := Z.lor (RTLD_NOW hd) (RTLD_GLOBAL hd).

Definition alloc_size (w : World) : Z :=
  size_add (size_add (size_add (strlen (pkglib_path w)) 1) (strlen library_file)) 1.

Definition loader (v : Variant) (hd : Headers) (w : World) (main_arg : Datum) : M unit :=
  BackgroundWorkerUnblockSignals;;
  path ← palloc w (alloc_size w);
  join_path_components path (pkglib_path w) library_file;;
  elog (log_level v) (log_format v) path;;
  h ← dlopen w path (load_flags hd);
  pfree path;;
  f ← dlsym w h entry_symbol;
  call w f main_arg;;
  dlclose h;;
  proc_exit (exit_status v).

(** The names the theorems use for what a run computes on its way. *)
Definition resolved_path (w : World) : string :=
  canonical_join (pkglib_path w) library_file.

Definition path_chunk (w : World) : ptr := palloc_chunk w (alloc_size w).

Definition library_handle (hd : Headers) (w : World) : ptr :=
  dlopen_answer w (resolved_path w) (load_flags hd).

Definition entry_point (hd : Headers) (w : World) : ptr :=
  dlsym_answer w (library_handle hd w) entry_symbol.

(** The directory, the file name and their terminators lie in one
    address space, so the sum of their sizes is a [size_t]. *)
Definition host_strings_fit (w : World) : Prop :=
  strlen (pkglib_path w) + 1 + strlen library_file + 1 <= SIZE_MAX.

(** The calls of a run up to and including the call of the entry point. *)
Definition steps_to_call (v : Variant) (hd : Headers) (w : World) (main_arg : Datum)
  : list event :=
  [ EvUnblockSignals;
    EvPalloc (alloc_size w) (path_chunk w);
    EvJoinPath (path_chunk w) (pkglib_path w) library_file;
    EvElog (log_level v) (format_s (log_format v) (resolved_path w));
    EvDlopen (resolved_path w) (load_flags hd);
    EvPfree (path_chunk w);
    EvDlsym (library_handle hd w) entry_symbol;
    EvCall (entry_point hd w) main_arg ].

(** The calls after the entry point has returned: [dlclose], and
    [proc_exit] when [dlclose] comes back. *)
Definition steps_after_call (v : Variant) (hd : Headers) (w : World) : list event :=
  EvDlclose (library_handle hd w)
  :: (if library_handle hd w =? NULL then [] else [EvProcExit (exit_status v)]).

(** Event classifiers. *)
Definition is_palloc (e : event) : bool :=
  match e with EvPalloc _ _ => true | _ => false end.
Definition is_join (e : event) : bool :=
  match e with EvJoinPath _ _ _ => true | _ => false end.
Definition is_elog (e : event) : bool :=
  match e with EvElog _ _ => true | _ => false end.
Definition is_dlopen (e : event) : bool :=
  match e with EvDlopen _ _ => true | _ => false end.
Definition is_pfree (e : event) : bool :=
  match e with EvPfree _ => true | _ => false end.
Definition is_dlsym (e : event) : bool :=
  match e with EvDlsym _ _ => true | _ => false end.
Definition is_call (e : event) : bool :=
  match e with EvCall _ _ => true | _ => false end.
Definition is_dlclose (e : event) : bool :=
  match e with EvDlclose _ => true | _ => false end.
Definition is_exit (e : event) : bool :=
  match e with EvProcExit _ => true | _ => false end.

(** ** The two builds, side by side *)

Inductive build : Type := BwBuild | ExtensionBuild.

Definition background_main_of (b : build) : Headers -> World -> Datum -> M unit :=
  match b with
  | BwBuild => Bw.background_main
  | ExtensionBuild => Extension.background_main
  end.

Definition PG_init_of (b : build) : Headers -> M unit :=
  match b with
  | BwBuild => Bw._PG_init
  | ExtensionBuild => Extension._PG_init
  end.

Definition variant_of (b : build) (hd : Headers) : Variant :=
  match b with
  | BwBuild => bw_variant hd
  | ExtensionBuild => extension_variant hd
  end.

(** What the process has done when the write of the joined path fits
    the chunk. *)
Definition completed_run (v : Variant) (hd : Headers) (w : World) (main_arg : Datum)
  : result unit :=
  if entry_point hd w =? NULL
  then Halt (Undefined NullCall)
            {| heap := ∅; trace := steps_to_call v hd w main_arg |}
  else if entry_returns w (entry_point hd w) main_arg
  then Halt (if library_handle hd w =? NULL
             then Undefined NullHandle else Exited (exit_status v))
            {| heap := ∅;
               trace := steps_to_call v hd w main_arg ++ steps_after_call v hd w |}
  else Halt NoReturn {| heap := ∅; trace := steps_to_call v hd w main_arg |}.

(** The descriptor both builds register. *)
Definition loader_worker (hd : Headers) : BackgroundWorker := {|
  bgw_name := "FerretDBLoader";
  bgw_flags := BGWORKER_SHMEM_ACCESS hd;
  bgw_start_time := BgWorkerStart_RecoveryFinished hd;
  bgw_restart_time := BGW_NEVER_RESTART hd;
  bgw_library_name := "ferretdb_loader";
  bgw_function_name := "background_main"
|}.

(** Two directory separators in a row somewhere in [s]. *)
Fixpoint has_double_sep (s : string) : bool :=
  match s with
  | EmptyString => false
  | String c r =>
      match r with
      | EmptyString => false
      | String c' _ => (is_dir_sep c && is_dir_sep c') || has_double_sep r
      end
  end.

(** The last character of [s] is a directory separator. *)
Fixpoint ends_with_sep (s : string) : bool :=
  match s with
  | EmptyString => false
  | String c r =>
      match r with
      | EmptyString => is_dir_sep c
      | String _ _ => ends_with_sep r
      end
  end.

(** Forget the two things the builds are said to differ in: the
    severity of the log line and the exit status. *)
Definition erase_severity_and_status (e : event) : event :=
  match e with
  | EvElog _ line => EvElog 0 line
  | EvProcExit _ => EvProcExit 0
  | _ => e
  end.

(** Forget the wording of the log line as well. *)
Definition erase_variant (e : event) : event :=
  match e with
  | EvElog _ _ => EvElog 0 EmptyString
  | EvProcExit _ => EvProcExit 0
  | _ => e
  end.

(** Step [e1] of the ferretdb-bw build and step [e2] of the
    ferretdb-extension build are the same call, up to the three
    parameters of the variant: the log lines are the two formats filled
    with one and the same path, at the two severities; the exit statuses
    are those of the two builds; every other call is identical. *)
Definition corresponds (hd : Headers) (e1 e2 : event) : Prop :=
  match e1, e2 with
  | EvElog l1 line1, EvElog l2 line2 =>
      l1 = log_level (bw_variant hd) /\ l2 = log_level (extension_variant hd)
      /\ exists file,
           line1 = format_s (log_format (bw_variant hd)) file
           /\ line2 = format_s (log_format (extension_variant hd)) file
  | EvProcExit c1, EvProcExit c2 =>
      c1 = exit_status (bw_variant hd) /\ c2 = exit_status (extension_variant hd)
  | _, _ => e1 = e2
  end.

Definition erase_status (o : outcome) : outcome :=
  match o with
  | Exited _ => Exited 0
  | _ => o
  end.


(** [m], [n] times in a row. *)
Fixpoint times (n : nat) (m : M unit) : M unit :=
  match n with
  | O => mret tt
  | S k => m;; times k m
  end.

(** * Properties *)

(** ** The scenario of the specification

    Library directory "/opt/pg/lib", the library loads, the entry point
    is found, called with argument 0 and returns. *)

Example scenario_bw :
  run (Bw.background_main pg_linux world_ok 0)
  = Halt (Exited 0)
      {| heap := ∅;
         trace := [ EvUnblockSignals;
                    EvPalloc 24 4096;
                    EvJoinPath 4096 "/opt/pg/lib" "ferretdb.so";
                    EvElog 15 "ferretdb_loader: loading '/opt/pg/lib/ferretdb.so'";
                    EvDlopen "/opt/pg/lib/ferretdb.so" 258;
                    EvPfree 4096;
                    EvDlsym 7 "BackgroundWorkerMain";
                    EvCall 9 0;
                    EvDlclose 7;
                    EvProcExit 0 ] |}.
Proof. vm_compute. reflexivity. Qed.

Example scenario_extension :
  run (Extension.background_main pg_linux world_ok 0)
  = Halt (Exited 2)
      {| heap := ∅;
         trace := [ EvUnblockSignals;
                    EvPalloc 24 4096;
                    EvJoinPath 4096 "/opt/pg/lib" "ferretdb.so";
                    EvElog 14 ("ferretdb_loader: loading go shared lib "
                               +:+ dquote +:+ "/opt/pg/lib/ferretdb.so" +:+ dquote);
                    EvDlopen "/opt/pg/lib/ferretdb.so" 258;
                    EvPfree 4096;
                    EvDlsym 7 "BackgroundWorkerMain";
                    EvCall 9 0;
                    EvDlclose 7;
                    EvProcExit 2 ] |}.
Proof. vm_compute. reflexivity. Qed.

(** ** Each build is an instance of the common loader *)

Lemma bw_background_main_loader hd w main_arg :
  Bw.background_main hd w main_arg = loader (bw_variant hd) hd w main_arg.
Proof. reflexivity. Qed.

Lemma extension_background_main_loader hd w main_arg :
  Extension.background_main hd w main_arg = loader (extension_variant hd) hd w main_arg.
Proof. reflexivity. Qed.

(** ** Sizes *)

Lemma length_string_app (a b : string) :
  String.length (a +:+ b) = (String.length a + String.length b)%nat.
Proof. induction a as [|c a IH]; simpl; [reflexivity | now rewrite IH]. Qed.

Lemma length_trim_trailing_sep s :
  (String.length (trim_trailing_sep s) <= String.length s)%nat.
Proof.
  induction s as [|c r IH]; simpl; [lia|].
  destruct (trim_trailing_sep r) as [|c' r'] eqn:E.
  - destruct (is_dir_sep c); simpl; lia.
  - simpl in *. lia.
Qed.

Lemma length_canonical_join head tail :
  (String.length (canonical_join head tail)
   <= String.length head + 1 + String.length tail)%nat.
Proof.
  destruct head as [|c r]; [simpl; lia|].
  unfold canonical_join.
  rewrite !length_string_app.
  pose proof (length_trim_trailing_sep (String c r)).
  simpl String.length in *. lia.
Qed.

Lemma strlen_nonneg s : 0 <= strlen s.
Proof. unfold strlen. lia. Qed.

Lemma alloc_size_fit w :
  host_strings_fit w ->
  alloc_size w = strlen (pkglib_path w) + 1 + strlen library_file + 1.
Proof.
  unfold host_strings_fit, alloc_size, size_add, SIZE_MAX. intros H.
  pose proof (strlen_nonneg (pkglib_path w)).
  pose proof (strlen_nonneg library_file).
  rewrite (Z.mod_small (strlen (pkglib_path w) + 1)) by lia.
  rewrite (Z.mod_small (strlen (pkglib_path w) + 1 + strlen library_file)) by lia.
  rewrite Z.mod_small by lia. reflexivity.
Qed.

Lemma resolved_path_fits w :
  host_strings_fit w -> strlen (resolved_path w) + 1 <= alloc_size w.
Proof.
  intros H. rewrite (alloc_size_fit w H).
  pose proof (length_canonical_join (pkglib_path w) library_file).
  unfold resolved_path, strlen. lia.
Qed.

(** ** Symbolic execution of the loader *)

Ltac unfold_calls :=
  unfold run, loader, BackgroundWorkerUnblockSignals, palloc, pfree,
    join_path_components, elog, dlopen, dlsym, call, dlclose, proc_exit,
    read_cstring, write_cstring, emit, halt,
    mbind, mret, M_bind, M_ret, bind, ret, fresh_proc;
  cbn [heap trace capacity contents app].

Ltac step_heap :=
  repeat first
    [ rewrite lookup_insert_eq
    | rewrite delete_insert_eq
    | rewrite delete_empty
    | progress cbn [heap trace capacity contents app] ].

Lemma run_loader_fit v hd w main_arg :
  strlen (resolved_path w) + 1 <= alloc_size w ->
  run (loader v hd w main_arg) = completed_run v hd w main_arg.
Proof.
  intros Hfit. unfold_calls. step_heap.
  fold (resolved_path w).
  destruct (Z.leb_spec (strlen (resolved_path w) + 1) (alloc_size w)) as [_|Hlt];
    [|lia].
  step_heap.
  unfold completed_run, steps_to_call, steps_after_call.
  fold (path_chunk w). fold (library_handle hd w). fold (entry_point hd w).
  destruct (entry_point hd w =? NULL); [reflexivity|].
  destruct (entry_returns w (entry_point hd w) main_arg); [|reflexivity].
  destruct (library_handle hd w =? NULL); reflexivity.
Qed.

Lemma run_loader_overflow v hd w main_arg :
  alloc_size w < strlen (resolved_path w) + 1 ->
  run (loader v hd w main_arg)
  = Halt (Undefined Overflow)
         {| heap := {[ path_chunk w := {| capacity := alloc_size w; contents := None |} ]};
            trace := [ EvUnblockSignals;
                       EvPalloc (alloc_size w) (path_chunk w);
                       EvJoinPath (path_chunk w) (pkglib_path w) library_file ] |}.
Proof.
  intros Hlt. unfold_calls. step_heap.
  fold (resolved_path w).
  destruct (Z.leb_spec (strlen (resolved_path w) + 1) (alloc_size w)) as [Hle|_];
    [lia|].
  reflexivity.
Qed.

Lemma background_main_of_loader b hd w main_arg :
  background_main_of b hd w main_arg = loader (variant_of b hd) hd w main_arg.
Proof. destruct b; reflexivity. Qed.

Lemma run_build_fit b hd w main_arg :
  host_strings_fit w ->
  run (background_main_of b hd w main_arg)
  = completed_run (variant_of b hd) hd w main_arg.
Proof.
  intros H. rewrite background_main_of_loader.
  apply run_loader_fit, resolved_path_fits, H.
Qed.

(** Every run, fitting or not, is one of the two shapes. *)
Lemma run_build_cases b hd w main_arg :
  run (background_main_of b hd w main_arg)
  = completed_run (variant_of b hd) hd w main_arg
  \/ run (background_main_of b hd w main_arg)
     = Halt (Undefined Overflow)
         {| heap := {[ path_chunk w := {| capacity := alloc_size w; contents := None |} ]};
            trace := [ EvUnblockSignals;
                       EvPalloc (alloc_size w) (path_chunk w);
                       EvJoinPath (path_chunk w) (pkglib_path w) library_file ] |}.
Proof.
  rewrite background_main_of_loader.
  destruct (Z.le_gt_cases (strlen (resolved_path w) + 1) (alloc_size w)) as [H|H].
  - left. now apply run_loader_fit.
  - right. apply run_loader_overflow. lia.
Qed.

Lemma trace_completed_run v hd w main_arg :
  trace_of (completed_run v hd w main_arg)
  = steps_to_call v hd w main_arg
    ++ (if negb (entry_point hd w =? NULL) && entry_returns w (entry_point hd w) main_arg
        then steps_after_call v hd w else []).
Proof.
  unfold completed_run.
  destruct (entry_point hd w =? NULL); cbn [negb andb trace_of trace].
  - now rewrite app_nil_r.
  - destruct (entry_returns w (entry_point hd w) main_arg); cbn [trace_of trace].
    + reflexivity.
    + now rewrite app_nil_r.
Qed.

Lemma filter_completed_run (p : event -> bool) v hd w main_arg :
  p (EvDlclose (library_handle hd w)) = false ->
  p (EvProcExit (exit_status v)) = false ->
  List.filter p (trace_of (completed_run v hd w main_arg))
  = List.filter p (steps_to_call v hd w main_arg).
Proof.
  intros H1 H2. rewrite trace_completed_run, List.filter_app.
  destruct (negb (entry_point hd w =? NULL)
            && entry_returns w (entry_point hd w) main_arg);
    [|apply app_nil_r].
  unfold steps_after_call. cbn [List.filter]. rewrite H1.
  destruct (library_handle hd w =? NULL); cbn [List.filter];
    rewrite ?H2; apply app_nil_r.
Qed.

(** The log line of either build is the resolved path between a fixed
    prefix and a fixed suffix. *)
Lemma format_names_path b hd (file : string) :
  exists before after,
    format_s (log_format (variant_of b hd)) file = before +:+ file +:+ after.
Proof.
  destruct b.
  - exists "ferretdb_loader: loading '", "'". reflexivity.
  - exists ("ferretdb_loader: loading go shared lib " +:+ dquote), dquote.
    reflexivity.
Qed.

(** ** Order of the steps *)

(** C5: in every run of the loader, of either build and in every world,
    the first call is [BackgroundWorkerUnblockSignals]; whatever comes
    before a path resolution, a log line or a [dlopen] in the trace
    therefore contains the unblocking of signals. *)
Theorem signals_unblocked_first (b : build) (hd : Headers) (w : World) (main_arg : Datum) :
  (exists rest,
      trace_of (run (background_main_of b hd w main_arg)) = EvUnblockSignals :: rest)
  /\ (forall pre e post,
        trace_of (run (background_main_of b hd w main_arg)) = pre ++ e :: post ->
        is_join e || is_elog e || is_dlopen e = true ->
        In EvUnblockSignals pre).
Proof.
  assert (Hhead : exists rest,
             trace_of (run (background_main_of b hd w main_arg))
             = EvUnblockSignals :: rest).
  { destruct (run_build_cases b hd w main_arg) as [-> | ->].
    - rewrite trace_completed_run. eexists. reflexivity.
    - eexists. reflexivity. }
  split; [exact Hhead|].
  destruct Hhead as [rest ->]. intros pre e post Heq He.
  destruct pre as [|e0 pre].
  - cbn in Heq. injection Heq as <- _. discriminate He.
  - cbn in Heq. injection Heq as <- _. now left.
Qed.

(** C6: in every run where the host's strings fit the address space,
    exactly one [elog] call is made; the line is the build's format
    filled with the resolved path, so the path occurs in it; and the
    [elog] call comes right before the one [dlopen] call.  Nothing is
    assumed about the answer of [dlopen]: the line is there when the
    load fails. *)
Theorem one_log_line_before_load (b : build) (hd : Headers) (w : World) (main_arg : Datum) :
  host_strings_fit w ->
  let t := trace_of (run (background_main_of b hd w main_arg)) in
  let line := format_s (log_format (variant_of b hd)) (resolved_path w) in
  List.filter is_elog t = [EvElog (log_level (variant_of b hd)) line]
  /\ (exists before after, line = before +:+ resolved_path w +:+ after)
  /\ List.filter is_dlopen t = [EvDlopen (resolved_path w) (load_flags hd)]
  /\ (exists pre post,
        t = pre ++ EvElog (log_level (variant_of b hd)) line
                :: EvDlopen (resolved_path w) (load_flags hd) :: post
        /\ List.filter is_dlopen pre = []).
Proof.
  intros Hfit t line. subst t line. rewrite (run_build_fit b hd w main_arg Hfit).
  split; [|split; [|split]].
  - now rewrite filter_completed_run.
  - apply format_names_path.
  - now rewrite filter_completed_run.
  - rewrite trace_completed_run.
    exists [EvUnblockSignals; EvPalloc (alloc_size w) (path_chunk w);
            EvJoinPath (path_chunk w) (pkglib_path w) library_file].
    eexists. split; reflexivity.
Qed.

Lemma one_log_line_before_load_witness :
  host_strings_fit world_no_library
  /\ List.filter is_elog
       (trace_of (run (background_main_of BwBuild pg_linux world_no_library 0)))
     = [EvElog 15 "ferretdb_loader: loading '/opt/pg/lib/ferretdb.so'"].
Proof.
  assert (H : host_strings_fit world_no_library) by (vm_compute; discriminate).
  split; [exact H|].
  exact (proj1 (one_log_line_before_load BwBuild pg_linux world_no_library 0 H)).
Defined.

(** C8: in every run where the host's strings fit the address space,
    the one [dlopen] call is made with the flags [RTLD_NOW | RTLD_GLOBAL]:
    every bit of [RTLD_NOW] (immediate binding) and every bit of
    [RTLD_GLOBAL] (global visibility) is set, and no other bit is. *)
Theorem dlopen_now_and_global (b : build) (hd : Headers) (w : World) (main_arg : Datum) :
  host_strings_fit w ->
  exists file flags,
    List.filter is_dlopen (trace_of (run (background_main_of b hd w main_arg)))
    = [EvDlopen file flags]
    /\ flags = Z.lor (RTLD_NOW hd) (RTLD_GLOBAL hd)
    /\ Z.land flags (RTLD_NOW hd) = RTLD_NOW hd
    /\ Z.land flags (RTLD_GLOBAL hd) = RTLD_GLOBAL hd
    /\ (forall n, Z.testbit flags n
                  = Z.testbit (RTLD_NOW hd) n || Z.testbit (RTLD_GLOBAL hd) n).
Proof.
  intros Hfit. rewrite (run_build_fit b hd w main_arg Hfit).
  exists (resolved_path w), (load_flags hd).
  split; [now rewrite filter_completed_run|].
  unfold load_flags. split; [reflexivity|].
  split; [|split].
  - apply Z.bits_inj'. intros n _. rewrite Z.land_spec, Z.lor_spec.
    destruct (Z.testbit (RTLD_NOW hd) n), (Z.testbit (RTLD_GLOBAL hd) n); reflexivity.
  - apply Z.bits_inj'. intros n _. rewrite Z.land_spec, Z.lor_spec.
    destruct (Z.testbit (RTLD_NOW hd) n), (Z.testbit (RTLD_GLOBAL hd) n); reflexivity.
  - intros n. apply Z.lor_spec.
Qed.

Lemma dlopen_now_and_global_witness :
  host_strings_fit world_ok
  /\ exists file flags,
       List.filter is_dlopen
         (trace_of (run (background_main_of ExtensionBuild pg_linux world_ok 0)))
       = [EvDlopen file flags]
       /\ flags = 258.
Proof.
  assert (H : host_strings_fit world_ok) by (vm_compute; discriminate).
  split; [exact H|].
  destruct (dlopen_now_and_global ExtensionBuild pg_linux world_ok 0 H)
    as (file & flags & Hd & Hf & _).
  exists file, flags. split; [exact Hd | exact Hf].
Defined.

(** ** The successful run *)

(** C3: when the library loads and exports the entry point, a run makes
    exactly one call through a function pointer: the looked-up entry
    point, with the start argument of the worker as its argument.  When
    that call returns, the run ends with the call, one [dlclose] of the
    library handle and [proc_exit] with the build's status; there is no
    other [dlclose] in the trace. *)
Theorem entry_called_once_then_closed
    (b : build) (hd : Headers) (w : World) (main_arg : Datum) :
  host_strings_fit w ->
  library_handle hd w <> NULL ->
  entry_point hd w <> NULL ->
  let r := run (background_main_of b hd w main_arg) in
  List.filter is_call (trace_of r) = [EvCall (entry_point hd w) main_arg]
  /\ (entry_returns w (entry_point hd w) main_arg = true ->
      (exists pre,
          trace_of r = pre ++ [EvCall (entry_point hd w) main_arg;
                               EvDlclose (library_handle hd w);
                               EvProcExit (exit_status (variant_of b hd))]
          /\ List.filter is_call pre = []
          /\ List.filter is_dlclose pre = [])
      /\ List.filter is_dlclose (trace_of r) = [EvDlclose (library_handle hd w)]
      /\ outcome_of r = Some (Exited (exit_status (variant_of b hd)))).
Proof.
  intros Hfit Hh Hf r. subst r. rewrite (run_build_fit b hd w main_arg Hfit).
  split; [now rewrite filter_completed_run|].
  intros Hret. unfold completed_run, steps_after_call.
  apply Z.eqb_neq in Hf. apply Z.eqb_neq in Hh. rewrite Hf, Hret, Hh.
  cbn [trace_of trace outcome_of].
  split; [|split; reflexivity].
  exists [EvUnblockSignals; EvPalloc (alloc_size w) (path_chunk w);
          EvJoinPath (path_chunk w) (pkglib_path w) library_file;
          EvElog (log_level (variant_of b hd))
                 (format_s (log_format (variant_of b hd)) (resolved_path w));
          EvDlopen (resolved_path w) (load_flags hd);
          EvPfree (path_chunk w);
          EvDlsym (library_handle hd w) entry_symbol].
  repeat split.
Qed.

Lemma entry_called_once_then_closed_witness :
  List.filter is_call (trace_of (run (background_main_of BwBuild pg_linux world_ok 0)))
  = [EvCall 9 0]
  /\ outcome_of (run (background_main_of ExtensionBuild pg_linux world_ok 0))
     = Some (Exited 2).
Proof.
  assert (H : host_strings_fit world_ok) by (vm_compute; discriminate).
  assert (Hh : library_handle pg_linux world_ok <> NULL) by (vm_compute; discriminate).
  assert (Hf : entry_point pg_linux world_ok <> NULL) by (vm_compute; discriminate).
  split.
  - exact (proj1 (entry_called_once_then_closed BwBuild pg_linux world_ok 0 H Hh Hf)).
  - exact (proj2 (proj2 (proj2 (entry_called_once_then_closed
                                  ExtensionBuild pg_linux world_ok 0 H Hh Hf)
                                eq_refl))).
Defined.

(** ** The path buffer *)

(** C10: when the host's strings fit the address space, the one
    [palloc] call asks for [strlen(pkglib_path) + 1 + strlen("ferretdb.so")
    + 1] bytes; the joined path and its terminator fit in that many
    bytes, so the run does not stop on an overflowing write; the chunk is
    freed by exactly one [pfree] call, which precedes every call through
    a function pointer; and no chunk is left on the heap. *)
Theorem path_buffer_fits_and_is_freed
    (b : build) (hd : Headers) (w : World) (main_arg : Datum) :
  host_strings_fit w ->
  let r := run (background_main_of b hd w main_arg) in
  let size := strlen (pkglib_path w) + 1 + strlen "ferretdb.so" + 1 in
  List.filter is_palloc (trace_of r) = [EvPalloc size (path_chunk w)]
  /\ strlen (canonical_join (pkglib_path w) "ferretdb.so") + 1 <= size
  /\ outcome_of r <> Some (Undefined Overflow)
  /\ outcome_of r <> Some (Undefined BadPointer)
  /\ List.filter is_pfree (trace_of r) = [EvPfree (path_chunk w)]
  /\ (exists pre post,
        trace_of r = pre ++ EvPfree (path_chunk w) :: post
        /\ List.filter is_call pre = [])
  /\ heap_of r = ∅.
Proof.
  intros Hfit r size. subst r size.
  rewrite (run_build_fit b hd w main_arg Hfit).
  pose proof (alloc_size_fit w Hfit) as Hsize.
  pose proof (resolved_path_fits w Hfit) as Hle.
  change "ferretdb.so"%string with library_file.
  rewrite <- Hsize. fold (resolved_path w).
  split; [now rewrite filter_completed_run|].
  split; [exact Hle|].
  split; [|split; [|split; [|split]]].
  - unfold completed_run. destruct (entry_point hd w =? NULL); [discriminate|].
    destruct (entry_returns w (entry_point hd w) main_arg); [|discriminate].
    destruct (library_handle hd w =? NULL); discriminate.
  - unfold completed_run. destruct (entry_point hd w =? NULL); [discriminate|].
    destruct (entry_returns w (entry_point hd w) main_arg); [|discriminate].
    destruct (library_handle hd w =? NULL); discriminate.
  - now rewrite filter_completed_run.
  - rewrite trace_completed_run.
    exists [EvUnblockSignals; EvPalloc (alloc_size w) (path_chunk w);
            EvJoinPath (path_chunk w) (pkglib_path w) library_file;
            EvElog (log_level (variant_of b hd))
                   (format_s (log_format (variant_of b hd)) (resolved_path w));
            EvDlopen (resolved_path w) (load_flags hd)].
    eexists. split; reflexivity.
  - unfold completed_run. destruct (entry_point hd w =? NULL); [reflexivity|].
    destruct (entry_returns w (entry_point hd w) main_arg); reflexivity.
Qed.

Lemma path_buffer_fits_and_is_freed_witness :
  host_strings_fit world_ok
  /\ List.filter is_palloc
       (trace_of (run (background_main_of BwBuild pg_linux world_ok 0)))
     = [EvPalloc 24 4096].
Proof.
  assert (H : host_strings_fit world_ok) by (vm_compute; discriminate).
  split; [exact H|].
  exact (proj1 (path_buffer_fits_and_is_freed BwBuild pg_linux world_ok 0 H)).
Defined.

(** ** Registration *)

Lemma substring_all (s : string) (m : nat) :
  (String.length s <= m)%nat -> substring 0 m s = s.
Proof.
  revert m. induction s as [|c s IH]; intros m Hm.
  - destruct m; reflexivity.
  - destruct m as [|m]; simpl in Hm; [lia|].
    simpl. f_equal. apply IH. lia.
Qed.

Lemma snprintf_whole (n : nat) (lit : string) :
  (String.length lit < n)%nat -> snprintf n lit = lit.
Proof. intros H. unfold snprintf. apply substring_all. lia. Qed.

(** C4: when the name buffers of the descriptor hold sixteen bytes or
    more, [_PG_init] of either build, from whatever state of the process,
    registers exactly one worker, and its descriptor has restart time
    [BGW_NEVER_RESTART], start time [BgWorkerStart_RecoveryFinished], the
    flag [BGWORKER_SHMEM_ACCESS], library name "ferretdb_loader" and
    function name "background_main".  [_PG_init] reads nothing but the
    constants of the host's headers. *)
Theorem registered_worker_is_fixed (b : build) (hd : Headers) (s : Proc) :
  (16 <= BGW_MAXLEN hd)%nat ->
  exists d,
    PG_init_of b hd s
    = Ret tt {| heap := heap s; trace := trace s ++ [EvRegisterBackgroundWorker d] |}
    /\ bgw_restart_time d = BGW_NEVER_RESTART hd
    /\ bgw_start_time d = BgWorkerStart_RecoveryFinished hd
    /\ Z.land (bgw_flags d) (BGWORKER_SHMEM_ACCESS hd) = BGWORKER_SHMEM_ACCESS hd
    /\ bgw_library_name d = "ferretdb_loader"
    /\ bgw_function_name d = "background_main"
    /\ d = loader_worker hd.
Proof.
  intros Hlen. exists (loader_worker hd).
  split.
  - destruct b; unfold PG_init_of, Bw._PG_init, Extension._PG_init,
      RegisterBackgroundWorker, emit;
      rewrite !snprintf_whole by (simpl; lia); reflexivity.
  - cbn [loader_worker bgw_restart_time bgw_start_time bgw_flags
         bgw_library_name bgw_function_name].
    rewrite Z.land_diag. repeat split.
Qed.

Lemma registered_worker_is_fixed_witness :
  exists d,
    PG_init_of BwBuild pg_linux fresh_proc
    = Ret tt {| heap := ∅; trace := [EvRegisterBackgroundWorker d] |}
    /\ bgw_restart_time d = -1.
Proof.
  assert (H : (16 <= BGW_MAXLEN pg_linux)%nat) by (simpl; lia).
  destruct (registered_worker_is_fixed BwBuild pg_linux fresh_proc H)
    as (d & Hrun & Hrestart & _).
  exists d. split; [exact Hrun | exact Hrestart].
Defined.

(** With name buffers of eight bytes the names would be cut short. *)
Example registered_names_truncated :
  snprintf 8 "ferretdb_loader" = "ferretd"%string
  /\ snprintf 16 "ferretdb_loader" = "ferretdb_loader"%string.
Proof. split; reflexivity. Qed.

(** ** The resolved locator *)

Lemma trim_trailing_sep_head c r c' r' :
  trim_trailing_sep (String c r) = String c' r' -> c' = c.
Proof.
  simpl. destruct (trim_trailing_sep r).
  - destruct (is_dir_sep c); [discriminate|]. now intros [= <- _].
  - now intros [= <- _].
Qed.

Lemma trim_trailing_sep_not_sep s : ends_with_sep (trim_trailing_sep s) = false.
Proof.
  induction s as [|c r IH]; [reflexivity|].
  simpl. destruct (trim_trailing_sep r) as [|c2 r2] eqn:E.
  - destruct (is_dir_sep c) eqn:Ec; simpl; [reflexivity | exact Ec].
  - exact IH.
Qed.

Lemma trim_trailing_sep_id s : ends_with_sep s = false -> trim_trailing_sep s = s.
Proof.
  induction s as [|c r IH]; [reflexivity|].
  destruct r as [|c' r'].
  - simpl. now intros ->.
  - intros H. change (ends_with_sep (String c' r') = false) in H.
    specialize (IH H).
    change (trim_trailing_sep (String c (String c' r')))
      with (match trim_trailing_sep (String c' r') with
            | EmptyString => if is_dir_sep c then EmptyString else String c EmptyString
            | String a q => String c (String a q)
            end).
    now rewrite IH.
Qed.

Lemma trim_trailing_sep_app_sep s :
  trim_trailing_sep (s +:+ "/") = trim_trailing_sep s.
Proof.
  induction s as [|c r IH]; [reflexivity|].
  change (String c r +:+ "/") with (String c (r +:+ "/")).
  simpl. now rewrite IH.
Qed.

Lemma trim_trailing_sep_no_double s :
  has_double_sep s = false -> has_double_sep (trim_trailing_sep s) = false.
Proof.
  induction s as [|c r IH]; [reflexivity|].
  intros H.
  change (trim_trailing_sep (String c r))
    with (match trim_trailing_sep r with
          | EmptyString => if is_dir_sep c then EmptyString else String c EmptyString
          | String a q => String c (String a q)
          end).
  destruct (trim_trailing_sep r) as [|c2 r2] eqn:E.
  - destruct (is_dir_sep c); reflexivity.
  - destruct r as [|c' r']; [discriminate E|].
    pose proof (trim_trailing_sep_head _ _ _ _ E) as ->.
    change (has_double_sep (String c (String c' r')))
      with ((is_dir_sep c && is_dir_sep c') || has_double_sep (String c' r')) in H.
    apply orb_false_iff in H as [H1 H2].
    change (has_double_sep (String c (String c' r2)))
      with ((is_dir_sep c && is_dir_sep c') || has_double_sep (String c' r2)).
    rewrite H1. simpl orb. apply IH, H2.
Qed.

Lemma app_no_double (a b : string) :
  has_double_sep a = false -> has_double_sep b = false ->
  ends_with_sep a = false ->
  has_double_sep (a +:+ b) = false.
Proof.
  induction a as [|c r IH]; intros Ha Hb He; [exact Hb|].
  destruct r as [|c' r'].
  - simpl in He. change (String c EmptyString +:+ b) with (String c b).
    destruct b as [|cb rb]; [reflexivity|].
    change (has_double_sep (String c (String cb rb)))
      with ((is_dir_sep c && is_dir_sep cb) || has_double_sep (String cb rb)).
    now rewrite He, Hb.
  - change (has_double_sep (String c (String c' r')))
      with ((is_dir_sep c && is_dir_sep c') || has_double_sep (String c' r')) in Ha.
    apply orb_false_iff in Ha as [H1 H2].
    change (String c (String c' r') +:+ b) with (String c (String c' (r' +:+ b))).
    change (has_double_sep (String c (String c' (r' +:+ b))))
      with ((is_dir_sep c && is_dir_sep c')
            || has_double_sep (String c' r' +:+ b)).
    rewrite H1. simpl orb. apply IH; assumption.
Qed.

Lemma canonical_join_no_double (head tail : string) :
  has_double_sep head = false ->
  has_double_sep ("/" +:+ tail) = false ->
  has_double_sep tail = false ->
  has_double_sep (canonical_join head tail) = false.
Proof.
  intros Hh Hst Ht. destruct head as [|c r]; [exact Ht|].
  unfold canonical_join. apply app_no_double.
  - now apply trim_trailing_sep_no_double.
  - exact Hst.
  - apply trim_trailing_sep_not_sep.
Qed.

Lemma canonical_join_trailing_sep (head tail : string) :
  head <> EmptyString ->
  canonical_join (head +:+ "/") tail = canonical_join head tail.
Proof.
  intros Hne. destruct head as [|c r]; [congruence|].
  change (String c r +:+ "/") with (String c (r +:+ "/")).
  unfold canonical_join.
  change (String c (r +:+ "/")) with (String c r +:+ "/").
  now rewrite trim_trailing_sep_app_sep.
Qed.

(** C7: when the host's strings fit the address space, a run resolves
    the locator by exactly one call of [join_path_components], on the
    host's library directory and "ferretdb.so", and the file it opens is
    the canonical join of the two.  For a non-empty directory that join is
    the directory without its trailing separators, one separator and the
    file name; a separator added at the end of the directory changes
    nothing; a directory without a double separator gives a locator
    without one; and a directory that does not end in a separator gets
    one inserted, where plain concatenation would not. *)
Theorem locator_is_canonical_join
    (b : build) (hd : Headers) (w : World) (main_arg : Datum) :
  host_strings_fit w ->
  let t := trace_of (run (background_main_of b hd w main_arg)) in
  let D := pkglib_path w in
  List.filter is_join t = [EvJoinPath (path_chunk w) D "ferretdb.so"]
  /\ List.filter is_dlopen t
     = [EvDlopen (canonical_join D "ferretdb.so") (load_flags hd)]
  /\ (D <> EmptyString ->
      canonical_join D "ferretdb.so" = trim_trailing_sep D +:+ "/ferretdb.so"
      /\ ends_with_sep (trim_trailing_sep D) = false
      /\ canonical_join (D +:+ "/") "ferretdb.so" = canonical_join D "ferretdb.so")
  /\ (has_double_sep D = false ->
      has_double_sep (canonical_join D "ferretdb.so") = false)
  /\ (D <> EmptyString -> ends_with_sep D = false ->
      canonical_join D "ferretdb.so" = D +:+ "/ferretdb.so").
Proof.
  intros Hfit t D. subst t D. rewrite (run_build_fit b hd w main_arg Hfit).
  split; [now rewrite filter_completed_run|].
  split; [now rewrite filter_completed_run|].
  split; [|split].
  - intros Hne. split; [|split].
    + destruct (pkglib_path w); [congruence | reflexivity].
    + apply trim_trailing_sep_not_sep.
    + now apply canonical_join_trailing_sep.
  - intros Hd. now apply canonical_join_no_double.
  - intros Hne He. destruct (pkglib_path w) as [|c r] eqn:E; [congruence|].
    unfold canonical_join. now rewrite trim_trailing_sep_id.
Qed.

Lemma locator_is_canonical_join_witness :
  host_strings_fit world_ok
  /\ List.filter is_dlopen
       (trace_of (run (background_main_of BwBuild pg_linux world_ok 0)))
     = [EvDlopen "/opt/pg/lib/ferretdb.so" 258].
Proof.
  assert (H : host_strings_fit world_ok) by (vm_compute; discriminate).
  split; [exact H|].
  exact (proj1 (proj2 (locator_is_canonical_join BwBuild pg_linux world_ok 0 H))).
Defined.

(** ** The two builds compared *)

(** C9, as stated, fails: with the severity and the exit status
    forgotten, the traces of the two builds in the sample world still
    differ, in the text of the log line. *)
Lemma builds_differ_in_log_wording :
  map erase_severity_and_status
      (trace_of (run (Bw.background_main pg_linux world_ok 0)))
  <> map erase_severity_and_status
         (trace_of (run (Extension.background_main pg_linux world_ok 0))).
Proof. vm_compute. discriminate. Qed.

Lemma map_erase_variant_steps v1 v2 hd w main_arg :
  map erase_variant (steps_to_call v1 hd w main_arg)
  = map erase_variant (steps_to_call v2 hd w main_arg).
Proof. reflexivity. Qed.

Lemma erase_variant_completed_run v1 v2 hd w main_arg :
  map erase_variant (trace_of (completed_run v1 hd w main_arg))
  = map erase_variant (trace_of (completed_run v2 hd w main_arg))
  /\ option_map erase_status (outcome_of (completed_run v1 hd w main_arg))
     = option_map erase_status (outcome_of (completed_run v2 hd w main_arg)).
Proof.
  unfold completed_run, steps_after_call.
  destruct (entry_point hd w =? NULL); [split; reflexivity|].
  destruct (entry_returns w (entry_point hd w) main_arg); [|split; reflexivity].
  destruct (library_handle hd w =? NULL); split; reflexivity.
Qed.

Lemma corresponds_completed_run hd w main_arg :
  Forall2 (corresponds hd)
    (trace_of (completed_run (bw_variant hd) hd w main_arg))
    (trace_of (completed_run (extension_variant hd) hd w main_arg)).
Proof.
  assert (Hlog : corresponds hd
            (EvElog (log_level (bw_variant hd))
                    (format_s (log_format (bw_variant hd)) (resolved_path w)))
            (EvElog (log_level (extension_variant hd))
                    (format_s (log_format (extension_variant hd)) (resolved_path w)))).
  { split; [reflexivity|]. split; [reflexivity|].
    exists (resolved_path w). split; reflexivity. }
  assert (Hexit : corresponds hd
            (EvProcExit (exit_status (bw_variant hd)))
            (EvProcExit (exit_status (extension_variant hd)))).
  { split; reflexivity. }
  unfold completed_run, steps_after_call.
  destruct (entry_point hd w =? NULL);
    [|destruct (entry_returns w (entry_point hd w) main_arg);
      [destruct (library_handle hd w =? NULL)|]];
    cbn [trace_of trace];
    unfold steps_to_call; cbn [app];
    repeat (constructor; [first [exact Hlog | exact Hexit | reflexivity]|]);
    constructor.
Qed.

(** C9, amended: the two builds are the same loader at two settings of
    three parameters: the severity of the log line, its wording, and the
    exit status.  In every world and for every start argument their runs
    make the same calls in the same order, up to these three (the two log
    lines name the same path), and end the same way, up to the exit
    status; the two [_PG_init] are equal. *)
Theorem builds_equal_up_to_variant (hd : Headers) (w : World) (main_arg : Datum) :
  Bw.background_main hd w main_arg = loader (bw_variant hd) hd w main_arg
  /\ Extension.background_main hd w main_arg
     = loader (extension_variant hd) hd w main_arg
  /\ Forall2 (corresponds hd)
       (trace_of (run (Bw.background_main hd w main_arg)))
       (trace_of (run (Extension.background_main hd w main_arg)))
  /\ map erase_variant (trace_of (run (Bw.background_main hd w main_arg)))
     = map erase_variant (trace_of (run (Extension.background_main hd w main_arg)))
  /\ option_map erase_status (outcome_of (run (Bw.background_main hd w main_arg)))
     = option_map erase_status
         (outcome_of (run (Extension.background_main hd w main_arg)))
  /\ Bw._PG_init hd = Extension._PG_init hd.
Proof.
  split; [reflexivity|]. split; [reflexivity|].
  assert (Hruns :
      Forall2 (corresponds hd)
        (trace_of (run (loader (bw_variant hd) hd w main_arg)))
        (trace_of (run (loader (extension_variant hd) hd w main_arg)))
      /\ map erase_variant (trace_of (run (loader (bw_variant hd) hd w main_arg)))
         = map erase_variant
             (trace_of (run (loader (extension_variant hd) hd w main_arg)))
      /\ option_map erase_status
           (outcome_of (run (loader (bw_variant hd) hd w main_arg)))
         = option_map erase_status
             (outcome_of (run (loader (extension_variant hd) hd w main_arg)))).
  { destruct (Z.le_gt_cases (strlen (resolved_path w) + 1) (alloc_size w)) as [H|H].
    - rewrite (run_loader_fit (bw_variant hd) hd w main_arg H).
      rewrite (run_loader_fit (extension_variant hd) hd w main_arg H).
      split; [apply corresponds_completed_run|].
      apply erase_variant_completed_run.
    - assert (H' : alloc_size w < strlen (resolved_path w) + 1) by lia.
      rewrite (run_loader_overflow (bw_variant hd) hd w main_arg H').
      rewrite (run_loader_overflow (extension_variant hd) hd w main_arg H').
      split; [|split; reflexivity].
      cbn [trace_of trace].
      repeat (constructor; [reflexivity|]). constructor. }
  destruct Hruns as (Hc & Ht & Ho).
  split; [exact Hc|]. split; [exact Ht|]. split; [exact Ho|]. reflexivity.
Qed.

(** ** Unchecked answers of the dynamic loader *)

(** Whenever the looked-up entry point is null, the run calls it. *)
Lemma null_entry_point_is_called b hd w main_arg :
  host_strings_fit w ->
  entry_point hd w = NULL ->
  run (background_main_of b hd w main_arg)
  = Halt (Undefined NullCall)
         {| heap := ∅; trace := steps_to_call (variant_of b hd) hd w main_arg |}.
Proof.
  intros Hfit Hnull. rewrite (run_build_fit b hd w main_arg Hfit).
  unfold completed_run. now rewrite Hnull.
Qed.

(** Whenever [dlopen] answers null, the run looks the entry symbol up on
    the null handle and calls the answer. *)
Lemma failed_load_is_used b hd w main_arg :
  host_strings_fit w ->
  library_handle hd w = NULL ->
  let t := trace_of (run (background_main_of b hd w main_arg)) in
  List.filter is_dlsym t = [EvDlsym NULL "BackgroundWorkerMain"]
  /\ List.filter is_call t
     = [EvCall (dlsym_answer w NULL "BackgroundWorkerMain") main_arg].
Proof.
  intros Hfit Hnull t. subst t. rewrite (run_build_fit b hd w main_arg Hfit).
  rewrite !filter_completed_run by reflexivity.
  cbn. unfold entry_point. rewrite Hnull. split; reflexivity.
Qed.

(** C1 fails on the code: in a world where the library loads (handle 7)
    and does not export "BackgroundWorkerMain", both builds call the null
    pointer that [dlsym] answered; the run ends in undefined behaviour,
    with neither [dlclose] nor [proc_exit]. *)
Theorem missing_symbol_null_pointer_called :
  library_handle pg_linux world_no_symbol = 7
  /\ entry_point pg_linux world_no_symbol = NULL
  /\ (forall b,
        outcome_of (run (background_main_of b pg_linux world_no_symbol 0))
        = Some (Undefined NullCall)
        /\ List.filter (fun e => is_call e || is_dlclose e || is_exit e)
             (trace_of (run (background_main_of b pg_linux world_no_symbol 0)))
           = [EvCall NULL 0]).
Proof.
  split; [reflexivity|]. split; [reflexivity|].
  intros b. destruct b; split; vm_compute; reflexivity.
Qed.

(** C2 fails on the code: in a world where [dlopen] answers null, both
    builds look "BackgroundWorkerMain" up on the null handle and call what
    the lookup answers.  Where that answer is null the run ends in
    undefined behaviour at the call; where the lookup on the null handle
    finds a function of that name in the process (address 11), the
    function is run, the null handle is passed to [dlclose], and the run
    ends there, without [proc_exit]. *)
Theorem failed_load_symbol_looked_up_and_called :
  library_handle pg_linux world_no_library = NULL
  /\ library_handle pg_linux world_no_library_global = NULL
  /\ (forall b,
        List.filter (fun e => is_dlsym e || is_call e || is_dlclose e || is_exit e)
          (trace_of (run (background_main_of b pg_linux world_no_library 0)))
        = [EvDlsym NULL "BackgroundWorkerMain"; EvCall NULL 0]
        /\ outcome_of (run (background_main_of b pg_linux world_no_library 0))
           = Some (Undefined NullCall)
        /\ List.filter (fun e => is_dlsym e || is_call e || is_dlclose e || is_exit e)
             (trace_of (run (background_main_of b pg_linux world_no_library_global 0)))
           = [EvDlsym NULL "BackgroundWorkerMain"; EvCall 11 0; EvDlclose NULL]
        /\ outcome_of (run (background_main_of b pg_linux world_no_library_global 0))
           = Some (Undefined NullHandle)).
Proof.
  split; [reflexivity|]. split; [reflexivity|].
  intros b. destruct b; repeat split; vm_compute; reflexivity.
Qed.

(** * Further properties of the two functions *)

(** ** How a run of [background_main] ends *)

(** X1: in every world, [background_main] of either build never returns
    to its caller: the run halts, and it halts in one of five ways: by
    [proc_exit] with the status of the build, in a call through a null
    pointer, inside an entry point that does not return, in [dlclose] of
    a null handle, or on a write past the path chunk.  It never reads or
    frees memory that is not an allocated chunk. *)
Theorem background_main_never_returns
    (b : build) (hd : Headers) (w : World) (main_arg : Datum) :
  exists o s,
    run (background_main_of b hd w main_arg) = Halt o s
    /\ (o = Exited (exit_status (variant_of b hd))
        \/ o = Undefined NullCall
        \/ o = NoReturn
        \/ o = Undefined NullHandle
        \/ o = Undefined Overflow).
Proof.
  destruct (run_build_cases b hd w main_arg) as [-> | ->].
  - unfold completed_run.
    destruct (entry_point hd w =? NULL);
      [|destruct (entry_returns w (entry_point hd w) main_arg);
        [destruct (library_handle hd w =? NULL)|]];
      eexists; eexists; (split; [reflexivity|]); auto 6.
  - eexists; eexists; (split; [reflexivity|]); auto 6.
Qed.

(** X2: when the host's strings fit the address space, the calls of a
    run are, in this order and with nothing in between: unblock signals,
    [palloc] of [strlen(pkglib_path) + 1 + strlen("ferretdb.so") + 1]
    bytes, [join_path_components] into that chunk, [elog] of the joined
    path, [dlopen] of the joined path, [pfree] of the chunk, [dlsym] of
    "BackgroundWorkerMain" on whatever [dlopen] answered, a call of
    whatever [dlsym] answered with the start argument; then, exactly when
    that pointer is not null and the callee returns, [dlclose] of the
    handle; and last, exactly when moreover the handle is not null,
    [proc_exit]. *)
Theorem complete_call_sequence
    (b : build) (hd : Headers) (w : World) (main_arg : Datum) :
  host_strings_fit w ->
  let path := canonical_join (pkglib_path w) "ferretdb.so" in
  let size := strlen (pkglib_path w) + 1 + strlen "ferretdb.so" + 1 in
  let buf := palloc_chunk w size in
  let flags := Z.lor (RTLD_NOW hd) (RTLD_GLOBAL hd) in
  let h := dlopen_answer w path flags in
  let f := dlsym_answer w h "BackgroundWorkerMain" in
  trace_of (run (background_main_of b hd w main_arg))
  = [ EvUnblockSignals;
      EvPalloc size buf;
      EvJoinPath buf (pkglib_path w) "ferretdb.so";
      EvElog (log_level (variant_of b hd))
             (format_s (log_format (variant_of b hd)) path);
      EvDlopen path flags;
      EvPfree buf;
      EvDlsym h "BackgroundWorkerMain";
      EvCall f main_arg ]
    ++ (if negb (f =? NULL) && entry_returns w f main_arg
        then EvDlclose h
             :: (if h =? NULL then []
                 else [ EvProcExit (exit_status (variant_of b hd)) ])
        else []).
Proof.
  intros Hfit path size buf flags h f. subst path size buf flags h f.
  rewrite (run_build_fit b hd w main_arg Hfit), trace_completed_run.
  unfold steps_to_call, steps_after_call, path_chunk, entry_point, library_handle,
    resolved_path, load_flags, entry_symbol.
  rewrite (alloc_size_fit w Hfit). reflexivity.
Qed.

Lemma complete_call_sequence_witness :
  trace_of (run (background_main_of BwBuild pg_linux world_no_library_global 5))
  = [ EvUnblockSignals;
      EvPalloc 24 4096;
      EvJoinPath 4096 "/opt/pg/lib" "ferretdb.so";
      EvElog 15 "ferretdb_loader: loading '/opt/pg/lib/ferretdb.so'";
      EvDlopen "/opt/pg/lib/ferretdb.so" 258;
      EvPfree 4096;
      EvDlsym 0 "BackgroundWorkerMain";
      EvCall 11 5;
      EvDlclose 0 ]
  /\ trace_of (run (background_main_of ExtensionBuild pg_linux world_ok 5))
     = [ EvUnblockSignals;
         EvPalloc 24 4096;
         EvJoinPath 4096 "/opt/pg/lib" "ferretdb.so";
         EvElog 14 ("ferretdb_loader: loading go shared lib "
                    +:+ dquote +:+ "/opt/pg/lib/ferretdb.so" +:+ dquote);
         EvDlopen "/opt/pg/lib/ferretdb.so" 258;
         EvPfree 4096;
         EvDlsym 7 "BackgroundWorkerMain";
         EvCall 9 5;
         EvDlclose 7;
         EvProcExit 2 ].
Proof.
  assert (H1 : host_strings_fit world_no_library_global) by (vm_compute; discriminate).
  assert (H2 : host_strings_fit world_ok) by (vm_compute; discriminate).
  split.
  - exact (complete_call_sequence BwBuild pg_linux world_no_library_global 5 H1).
  - exact (complete_call_sequence ExtensionBuild pg_linux world_ok 5 H2).
Defined.

(** X3: when the host's strings fit the address space, a run reaches
    [proc_exit] exactly when [dlopen] answered a handle that is not null,
    the pointer [dlsym] answered is not null and the callee returns; the
    status is then the constant of the build (0 in ferretdb-bw, 2 in
    ferretdb-extension), and no run exits with another status.  A run
    whose load failed never reaches [proc_exit]. *)
Theorem exit_exactly_when_entry_returns
    (b : build) (hd : Headers) (w : World) (main_arg : Datum) :
  host_strings_fit w ->
  let r := run (background_main_of b hd w main_arg) in
  let status := match b with BwBuild => 0 | ExtensionBuild => 2 end in
  (outcome_of r = Some (Exited status)
   <-> library_handle hd w <> NULL
       /\ entry_point hd w <> NULL
       /\ entry_returns w (entry_point hd w) main_arg = true)
  /\ (forall c, outcome_of r = Some (Exited c) -> c = status)
  /\ List.filter is_exit (trace_of r)
     = if negb (library_handle hd w =? NULL)
          && negb (entry_point hd w =? NULL)
          && entry_returns w (entry_point hd w) main_arg
       then [EvProcExit status] else [].
Proof.
  intros Hfit r status. subst r.
  assert (Hs : exit_status (variant_of b hd) = status) by (destruct b; reflexivity).
  rewrite (run_build_fit b hd w main_arg Hfit).
  rewrite trace_completed_run, List.filter_app.
  unfold completed_run, steps_after_call.
  destruct (Z.eqb_spec (entry_point hd w) NULL) as [He|He].
  - rewrite andb_false_r. cbn. split; [|split].
    + split; [discriminate | intros (_ & H & _); contradiction].
    + discriminate.
    + reflexivity.
  - destruct (entry_returns w (entry_point hd w) main_arg);
      destruct (Z.eqb_spec (library_handle hd w) NULL) as [Hh|Hh];
      cbn; rewrite ?Hs.
    + split; [|split].
      * split; [discriminate | intros (H & _); contradiction].
      * discriminate.
      * reflexivity.
    + split; [|split].
      * split; [intros _; repeat split; assumption | reflexivity].
      * now intros c [= <-].
      * reflexivity.
    + split; [|split].
      * split; [discriminate | intros (_ & _ & H); discriminate].
      * discriminate.
      * reflexivity.
    + split; [|split].
      * split; [discriminate | intros (_ & _ & H); discriminate].
      * discriminate.
      * reflexivity.
Qed.

Lemma exit_exactly_when_entry_returns_witness :
  outcome_of (run (background_main_of ExtensionBuild pg_linux world_ok 0))
  = Some (Exited 2)
  /\ outcome_of (run (background_main_of BwBuild pg_linux world_ok 0))
     = Some (Exited 0)
  /\ List.filter is_exit
       (trace_of (run (background_main_of BwBuild pg_linux world_no_library_global 0)))
     = [].
Proof.
  assert (H1 : host_strings_fit world_ok) by (vm_compute; discriminate).
  assert (H2 : host_strings_fit world_no_library_global) by (vm_compute; discriminate).
  split; [|split].
  - apply (proj1 (exit_exactly_when_entry_returns ExtensionBuild pg_linux world_ok 0 H1)).
    repeat split; vm_compute; discriminate.
  - apply (proj1 (exit_exactly_when_entry_returns BwBuild pg_linux world_ok 0 H1)).
    repeat split; vm_compute; discriminate.
  - exact (proj2 (proj2 (exit_exactly_when_entry_returns
                           BwBuild pg_linux world_no_library_global 0 H2))).
Defined.

(** X4: when the entry point is found and never returns, the run stays
    inside it: the library is never closed and [proc_exit] is never
    called, while the path chunk has already been freed and nothing is
    left on the heap. *)
Theorem blocking_entry_keeps_library_open
    (b : build) (hd : Headers) (w : World) (main_arg : Datum) :
  host_strings_fit w ->
  entry_point hd w <> NULL ->
  entry_returns w (entry_point hd w) main_arg = false ->
  let r := run (background_main_of b hd w main_arg) in
  outcome_of r = Some NoReturn
  /\ List.filter (fun e => is_dlclose e || is_exit e) (trace_of r) = []
  /\ List.filter is_pfree (trace_of r) = [EvPfree (path_chunk w)]
  /\ heap_of r = ∅
  /\ (exists pre, trace_of r = pre ++ [EvCall (entry_point hd w) main_arg]).
Proof.
  intros Hfit Hf Hret r. subst r.
  rewrite (run_build_fit b hd w main_arg Hfit). unfold completed_run.
  apply Z.eqb_neq in Hf. rewrite Hf, Hret. cbn [outcome_of trace_of heap_of heap trace].
  split; [reflexivity|]. split; [reflexivity|]. split; [reflexivity|].
  split; [reflexivity|].
  eexists [_; _; _; _; _; _; _]. reflexivity.
Qed.

Lemma blocking_entry_keeps_library_open_witness :
  outcome_of (run (background_main_of BwBuild pg_linux world_blocking 0)) = Some NoReturn
  /\ List.filter (fun e => is_dlclose e || is_exit e)
       (trace_of (run (background_main_of BwBuild pg_linux world_blocking 0))) = [].
Proof.
  assert (H : host_strings_fit world_blocking) by (vm_compute; discriminate).
  assert (Hf : entry_point pg_linux world_blocking <> NULL) by (vm_compute; discriminate).
  assert (Hr : entry_returns world_blocking (entry_point pg_linux world_blocking) 0 = false)
    by reflexivity.
  destruct (blocking_entry_keeps_library_open BwBuild pg_linux world_blocking 0 H Hf Hr)
    as (Ho & Hc & _).
  split; [exact Ho | exact Hc].
Defined.


(** ** The answers of the dynamic loader are used as they come *)

(** X5: in every world where the lookup of "BackgroundWorkerMain"
    answers null, whether or not the library loaded, the run calls the
    null pointer with the start argument and ends there: the call is the
    last event, the library handle is not closed and [proc_exit] is not
    reached. *)
Theorem null_lookup_always_called
    (b : build) (hd : Headers) (w : World) (main_arg : Datum) :
  host_strings_fit w ->
  entry_point hd w = NULL ->
  let r := run (background_main_of b hd w main_arg) in
  outcome_of r = Some (Undefined NullCall)
  /\ (exists pre, trace_of r = pre ++ [EvCall NULL main_arg]
                  /\ List.filter is_call pre = [])
  /\ List.filter (fun e => is_dlclose e || is_exit e) (trace_of r) = []
  /\ List.filter is_dlopen (trace_of r)
     = [EvDlopen (resolved_path w) (load_flags hd)].
Proof.
  intros Hfit Hnull r. subst r.
  rewrite (run_build_fit b hd w main_arg Hfit). unfold completed_run.
  rewrite Hnull. cbn [Z.eqb NULL outcome_of trace_of trace].
  unfold steps_to_call. rewrite Hnull.
  split; [reflexivity|]. split; [|split; reflexivity].
  eexists [_; _; _; _; _; _; _]. split; reflexivity.
Qed.

Lemma null_lookup_always_called_witness :
  outcome_of (run (background_main_of ExtensionBuild pg_linux world_no_symbol 3))
  = Some (Undefined NullCall).
Proof.
  assert (H : host_strings_fit world_no_symbol) by (vm_compute; discriminate).
  assert (Hn : entry_point pg_linux world_no_symbol = NULL) by reflexivity.
  exact (proj1 (null_lookup_always_called ExtensionBuild pg_linux world_no_symbol 3 H Hn)).
Defined.

(** X6: in every world where [dlopen] answers null, the run goes on as
    if it had not: it frees the path chunk, looks "BackgroundWorkerMain"
    up on the null handle, and calls what that lookup answers with the
    start argument.  When that answer is a function that returns, the run
    passes the null handle to [dlclose] and ends there.  No run whose
    load failed reaches [proc_exit]. *)
Theorem failed_load_ends_without_exit
    (b : build) (hd : Headers) (w : World) (main_arg : Datum) :
  host_strings_fit w ->
  library_handle hd w = NULL ->
  let r := run (background_main_of b hd w main_arg) in
  let f := dlsym_answer w NULL "BackgroundWorkerMain" in
  List.filter (fun e => is_pfree e || is_dlsym e || is_call e) (trace_of r)
  = [EvPfree (path_chunk w); EvDlsym NULL "BackgroundWorkerMain"; EvCall f main_arg]
  /\ List.filter is_exit (trace_of r) = []
  /\ (forall c, outcome_of r <> Some (Exited c))
  /\ (f <> NULL -> entry_returns w f main_arg = true ->
      outcome_of r = Some (Undefined NullHandle)
      /\ List.filter is_dlclose (trace_of r) = [EvDlclose NULL]).
Proof.
  intros Hfit Hnull r f. subst r f.
  rewrite (run_build_fit b hd w main_arg Hfit).
  split; [|split; [|split]].
  - rewrite filter_completed_run by reflexivity.
    unfold steps_to_call, entry_point. rewrite Hnull. reflexivity.
  - rewrite trace_completed_run, List.filter_app. unfold steps_after_call.
    rewrite Hnull.
    destruct (negb (entry_point hd w =? NULL)
              && entry_returns w (entry_point hd w) main_arg); reflexivity.
  - intros c. unfold completed_run. rewrite Hnull.
    destruct (entry_point hd w =? NULL); [discriminate|].
    destruct (entry_returns w (entry_point hd w) main_arg); discriminate.
  - intros Hf Hret. unfold completed_run, steps_to_call, steps_after_call, entry_point.
    rewrite Hnull. unfold entry_symbol.
    apply Z.eqb_neq in Hf. rewrite Hf, Hret. split; reflexivity.
Qed.

Lemma failed_load_ends_without_exit_witness :
  List.filter (fun e => is_pfree e || is_dlsym e || is_call e)
    (trace_of (run (background_main_of BwBuild pg_linux world_no_library_global 0)))
  = [EvPfree 4096; EvDlsym NULL "BackgroundWorkerMain"; EvCall 11 0]
  /\ outcome_of (run (background_main_of BwBuild pg_linux world_no_library_global 0))
     = Some (Undefined NullHandle).
Proof.
  assert (H : host_strings_fit world_no_library_global) by (vm_compute; discriminate).
  assert (Hn : library_handle pg_linux world_no_library_global = NULL) by reflexivity.
  destruct (failed_load_ends_without_exit BwBuild pg_linux world_no_library_global 0 H Hn)
    as (Ht & _ & _ & Hx).
  split; [exact Ht|].
  apply Hx; [vm_compute; discriminate | reflexivity].
Defined.

(** ** The start argument *)


(** ** The text of the log line *)

(** X8: when the host's strings fit the address space, the log line of
    ferretdb-bw is the text "ferretdb_loader: loading '", the resolved
    path and a closing quote, at severity [LOG]; the one of
    ferretdb-extension is "ferretdb_loader: loading go shared lib ", the
    resolved path between double quotes, at severity [DEBUG1].  The path
    is an argument of the format, not part of it: it is copied as it is,
    whatever characters it holds. *)
Theorem log_line_text (hd : Headers) (w : World) (main_arg : Datum) :
  host_strings_fit w ->
  let path := canonical_join (pkglib_path w) "ferretdb.so" in
  List.filter is_elog (trace_of (run (Bw.background_main hd w main_arg)))
  = [EvElog (LOG hd) ("ferretdb_loader: loading '" +:+ path +:+ "'")]
  /\ List.filter is_elog (trace_of (run (Extension.background_main hd w main_arg)))
     = [EvElog (DEBUG1 hd)
               ("ferretdb_loader: loading go shared lib "
                +:+ dquote +:+ path +:+ dquote)].
Proof.
  intros Hfit path. subst path. split.
  - change (Bw.background_main hd w main_arg)
      with (background_main_of BwBuild hd w main_arg).
    rewrite (run_build_fit BwBuild hd w main_arg Hfit).
    now rewrite filter_completed_run.
  - change (Extension.background_main hd w main_arg)
      with (background_main_of ExtensionBuild hd w main_arg).
    rewrite (run_build_fit ExtensionBuild hd w main_arg Hfit).
    now rewrite filter_completed_run.
Qed.

Lemma log_line_text_witness :
  List.filter is_elog (trace_of (run (Bw.background_main pg_linux world_no_symbol 0)))
  = [EvElog 15 "ferretdb_loader: loading '/opt/pg/lib/ferretdb.so'"].
Proof.
  assert (H : host_strings_fit world_no_symbol) by (vm_compute; discriminate).
  exact (proj1 (log_line_text pg_linux world_no_symbol 0 H)).
Defined.

(** ** The names in the descriptor, for any size of the name buffers *)

Lemma length_substring_le (s : string) (m : nat) :
  (String.length (substring 0 m s) <= m)%nat.
Proof.
  revert m. induction s as [|c s IH]; intros [|m]; simpl; try lia.
  specialize (IH m). lia.
Qed.

Lemma substring_is_prefix (s : string) (m : nat) :
  exists rest, s = substring 0 m s +:+ rest.
Proof.
  revert m. induction s as [|c s IH]; intros [|m]; simpl.
  - now exists EmptyString.
  - now exists EmptyString.
  - now exists (String c s).
  - destruct (IH m) as [rest Hrest]. exists rest.
    change (String c s = String c (substring 0 m s +:+ rest)).
    f_equal. exact Hrest.
Qed.

Lemma substring_whole_iff (s : string) (m : nat) :
  substring 0 m s = s <-> (String.length s <= m)%nat.
Proof.
  split.
  - intros H. rewrite <- H. apply length_substring_le.
  - apply substring_all.
Qed.

(** X9: whatever the size [BGW_MAXLEN] of the name buffers, [_PG_init]
    of either build returns after registering one worker and leaves the
    heap alone; each of the three names it stores is the beginning of its
    literal and is at most [BGW_MAXLEN - 1] characters long, so it fits
    its buffer with the terminator; the library name and the function name
    are stored whole exactly when [BGW_MAXLEN] is at least 16, the display
    name exactly when it is at least 15; the flags, the start time and the
    restart time do not depend on [BGW_MAXLEN]. *)
Theorem registered_names_fit_buffers (b : build) (hd : Headers) (s : Proc) :
  exists d,
    PG_init_of b hd s
    = Ret tt {| heap := heap s; trace := trace s ++ [EvRegisterBackgroundWorker d] |}
    /\ (String.length (bgw_name d) <= BGW_MAXLEN hd - 1
        /\ String.length (bgw_library_name d) <= BGW_MAXLEN hd - 1
        /\ String.length (bgw_function_name d) <= BGW_MAXLEN hd - 1)%nat
    /\ ((exists r, "FerretDBLoader"%string = bgw_name d +:+ r)
        /\ (exists r, "ferretdb_loader"%string = bgw_library_name d +:+ r)
        /\ (exists r, "background_main"%string = bgw_function_name d +:+ r))
    /\ (bgw_name d = "FerretDBLoader"%string <-> (15 <= BGW_MAXLEN hd)%nat)
    /\ (bgw_library_name d = "ferretdb_loader"%string <-> (16 <= BGW_MAXLEN hd)%nat)
    /\ (bgw_function_name d = "background_main"%string <-> (16 <= BGW_MAXLEN hd)%nat)
    /\ bgw_flags d = BGWORKER_SHMEM_ACCESS hd
    /\ bgw_start_time d = BgWorkerStart_RecoveryFinished hd
    /\ bgw_restart_time d = BGW_NEVER_RESTART hd.
Proof.
  eexists. split; [destruct b; reflexivity|].
  cbn [bgw_name bgw_library_name bgw_function_name bgw_flags bgw_start_time
       bgw_restart_time set_bgw_name set_bgw_flags set_bgw_start_time
       set_bgw_restart_time set_bgw_library_name set_bgw_function_name zeroed_worker].
  unfold snprintf.
  split; [repeat split; apply length_substring_le|].
  split; [repeat split; apply substring_is_prefix|].
  split; [rewrite substring_whole_iff; simpl; lia|].
  split; [rewrite substring_whole_iff; simpl; lia|].
  split; [rewrite substring_whole_iff; simpl; lia|].
  repeat split.
Qed.

(** ** Registering more than once *)

(** X10: [_PG_init] has no guard against being run again: [n] calls in
    a row, from whatever state of the process, make [n] calls of
    [RegisterBackgroundWorker] with one and the same descriptor, and
    leave the heap alone. *)
Theorem init_registers_on_every_call (b : build) (hd : Headers) :
  exists d,
    forall (n : nat) (s : Proc),
      times n (PG_init_of b hd) s
      = Ret tt {| heap := heap s;
                  trace := trace s ++ repeat (EvRegisterBackgroundWorker d) n |}.
Proof.
  assert (Hone : exists d, forall s,
             PG_init_of b hd s
             = Ret tt {| heap := heap s;
                         trace := trace s ++ [EvRegisterBackgroundWorker d] |}).
  { eexists. intros s. destruct b; reflexivity. }
  destruct Hone as [d Hone]. exists d.
  induction n as [|n IH]; intros s.
  - cbn [times repeat]. rewrite app_nil_r. now destruct s.
  - cbn [times repeat]. unfold mbind, M_bind, bind. rewrite Hone, IH.
    cbn [heap trace]. now rewrite <- app_assoc.
Qed.
